(** * Shallow embedding of certigo's [lib/tls.go]

    The TLS connection classifier of certigo: the version and cipher-suite
    registries, the map lookup with its [UNKNOWN_<hex>] default, the
    cipher-name derivation [explainCipher], the quality colouring
    [tlscolor] and the two encoders [EncodeTLSToText] and
    [EncodeTLSToObject].

    Go values are modelled as follows: a [uint16] or [uint8] is an [N];
    a Go [string] is a Rocq [string]; a [map[uint16]description] literal
    is an association list with distinct keys (a Go map literal rejects
    duplicate keys at compile time), looked up front to back.  A Go panic
    (index out of range, template failure) is [None]. *)

From Stdlib Require Import Strings.String Strings.Ascii PeanoNat NArith List Lia Bool.
Import ListNotations.
Open Scope string_scope.

(** ** Go string helpers *)

(** [s[n:]] and [s[:n]] on strings, by characters (all strings here are
    ASCII, so bytes and characters coincide). *)
Fixpoint str_drop (n : nat) (s : string) : string :=
  match n, s with
  | O, _ => s
  | S _, EmptyString => EmptyString
  | S n', String _ s' => str_drop n' s'
  end.

Fixpoint str_take (n : nat) (s : string) : string :=
  match n, s with
  | O, _ => EmptyString
  | S _, EmptyString => EmptyString
  | S n', String c s' => String c (str_take n' s')
  end.

(** Go's slice expression [s[lo:]]: panics when [lo > len(s)]. *)
Definition slice_from (s : string) (lo : nat) : option string :=
  if Nat.leb lo (String.length s) then Some (str_drop lo s) else None.

(** Go's [strings.Index(s, sep)]: position of the first occurrence. *)
Fixpoint index_of (sep s : string) : option nat :=
  if String.prefix sep s then Some 0
  else match s with
       | EmptyString => None
       | String _ s' => option_map S (index_of sep s')
       end.

(** All positions at which [sep] occurs in [s], in increasing order. *)
Fixpoint occurrences (sep s : string) : list nat :=
  (if String.prefix sep s then [0] else [])
  ++ match s with
     | EmptyString => []
     | String _ s' => map S (occurrences sep s')
     end.

(** Go's [strings.Split(s, sep)] for a non-empty [sep] (genSplit with
    n = -1): cut at every occurrence, left to right.  [fuel] bounds the
    number of cuts; [S (length s)] is always enough. *)
Fixpoint split_fuel (fuel : nat) (sep s : string) : list string :=
  match fuel with
  | O => [s]
  | S f =>
      match index_of sep s with
      | None => [s]
      | Some m =>
          str_take m s :: split_fuel f sep (str_drop (m + String.length sep) s)
      end
  end.

Definition strings_Split (s sep : string) : list string :=
  split_fuel (S (String.length s)) sep s.

(** Go's [xs[i]] on a slice: panics out of range. *)
Definition slice_index {A} (xs : list A) (i : nat) : option A := nth_error xs i.

(** ** fmt's [%x] on an unsigned integer

    [fmtInteger] with base 16 and the lower-case digit table
    ["0123456789abcdef"]: [for u >= 16 { buf[i] = digits[u%16]; u /= 16 };
    buf[i] = digits[u]].  The loop runs at most 16 times for a 64-bit
    value. *)
Definition digits : string := "0123456789abcdefx".

Definition hex_digit (d : N) : ascii :=
  match String.get (N.to_nat d) digits with
  | Some c => c
  | None => "0"%char
  end.

Fixpoint fmt_hex_loop (fuel : nat) (u : N) (acc : string) : string :=
  match fuel with
  | O => String (hex_digit u) acc
  | S f =>
      if (16 <=? u)%N
      then fmt_hex_loop f (u / 16)%N (String (hex_digit (u mod 16)%N) acc)
      else String (hex_digit u) acc
  end.

Definition fmt_x (u : N) : string := fmt_hex_loop 16 u EmptyString.

(** ** Data model *)

(** [const ( insecure = iota; ok = iota; good = iota )] *)
Definition insecure : N := 0.
Definition ok : N := 1.
Definition good : N := 2.

(** [type description struct { Name; Slug; Quality uint8 }] *)
Record description := mkDescription {
  Name : string;
  Slug : string;
  Quality : N
}.

(** [type TLSDescription struct { Version; Cipher }] *)
Record TLSDescription := mkTLSDescription {
  Version : string;
  Cipher : string
}.

(** The two fields of [tls.ConnectionState] that the encoders read. *)
Record ConnectionState := mkConnectionState {
  CS_Version : N;
  CS_CipherSuite : N
}.

(** A Go map literal [map[K]V{...}]. *)
Definition gomap (K V : Type) := list (K * V).

Definition map_get {V} (m : gomap N V) (k : N) : option V :=
  match find (fun kv => N.eqb (fst kv) k) m with
  | Some (_, v) => Some v
  | None => None
  end.

(** ** Registries *)

(** crypto/tls version constants. *)
Definition VersionSSL30 : N := 0x0300.
Definition VersionTLS10 : N := 0x0301.
Definition VersionTLS11 : N := 0x0302.
Definition VersionTLS12 : N := 0x0303.

Definition tlsVersions : gomap N description := [
  (VersionSSL30, mkDescription "SSL 3.0" "ssl_3_0" insecure);
  (VersionTLS10, mkDescription "TLS 1.0" "tls_1_0" insecure);
  (VersionTLS11, mkDescription "TLS 1.1" "tls_1_1" ok);
  (VersionTLS12, mkDescription "TLS 1.2" "tls_1_2" good)
].

(** crypto/tls cipher-suite constants (IANA values). *)
Definition TLS_RSA_WITH_RC4_128_SHA : N := 0x0005.
Definition TLS_RSA_WITH_3DES_EDE_CBC_SHA : N := 0x000a.
Definition TLS_RSA_WITH_AES_128_CBC_SHA : N := 0x002f.
Definition TLS_RSA_WITH_AES_256_CBC_SHA : N := 0x0035.
Definition TLS_RSA_WITH_AES_128_CBC_SHA256 : N := 0x003c.
Definition TLS_RSA_WITH_AES_128_GCM_SHA256 : N := 0x009c.
Definition TLS_RSA_WITH_AES_256_GCM_SHA384 : N := 0x009d.
Definition TLS_ECDHE_ECDSA_WITH_RC4_128_SHA : N := 0xc007.
Definition TLS_ECDHE_ECDSA_WITH_AES_128_CBC_SHA : N := 0xc009.
Definition TLS_ECDHE_ECDSA_WITH_AES_256_CBC_SHA : N := 0xc00a.
Definition TLS_ECDHE_RSA_WITH_RC4_128_SHA : N := 0xc011.
Definition TLS_ECDHE_RSA_WITH_3DES_EDE_CBC_SHA : N := 0xc012.
Definition TLS_ECDHE_RSA_WITH_AES_128_CBC_SHA : N := 0xc013.
Definition TLS_ECDHE_RSA_WITH_AES_256_CBC_SHA : N := 0xc014.
Definition TLS_ECDHE_ECDSA_WITH_AES_128_CBC_SHA256 : N := 0xc023.
Definition TLS_ECDHE_RSA_WITH_AES_128_CBC_SHA256 : N := 0xc027.
Definition TLS_ECDHE_RSA_WITH_AES_128_GCM_SHA256 : N := 0xc02f.
Definition TLS_ECDHE_ECDSA_WITH_AES_128_GCM_SHA256 : N := 0xc02b.
Definition TLS_ECDHE_RSA_WITH_AES_256_GCM_SHA384 : N := 0xc030.
Definition TLS_ECDHE_ECDSA_WITH_AES_256_GCM_SHA384 : N := 0xc02c.
Definition TLS_ECDHE_RSA_WITH_CHACHA20_POLY1305 : N := 0xcca8.
Definition TLS_ECDHE_ECDSA_WITH_CHACHA20_POLY1305 : N := 0xcca9.

Definition cipherSuites : gomap N description := [
  (TLS_RSA_WITH_RC4_128_SHA, mkDescription "" "TLS_RSA_WITH_RC4_128_SHA" insecure);
  (TLS_RSA_WITH_3DES_EDE_CBC_SHA, mkDescription "" "TLS_RSA_WITH_3DES_EDE_CBC_SHA" insecure);
  (TLS_RSA_WITH_AES_128_CBC_SHA, mkDescription "" "TLS_RSA_WITH_AES_128_CBC_SHA" ok);
  (TLS_RSA_WITH_AES_256_CBC_SHA, mkDescription "" "TLS_RSA_WITH_AES_256_CBC_SHA" ok);
  (TLS_RSA_WITH_AES_128_CBC_SHA256, mkDescription "" "TLS_RSA_WITH_AES_128_CBC_SHA256" ok);
  (TLS_RSA_WITH_AES_128_GCM_SHA256, mkDescription "" "TLS_RSA_WITH_AES_128_GCM_SHA256" ok);
  (TLS_RSA_WITH_AES_256_GCM_SHA384, mkDescription "" "TLS_RSA_WITH_AES_256_GCM_SHA384" ok);
  (TLS_ECDHE_ECDSA_WITH_RC4_128_SHA, mkDescription "" "TLS_ECDHE_ECDSA_WITH_RC4_128_SHA" insecure);
  (TLS_ECDHE_ECDSA_WITH_AES_128_CBC_SHA, mkDescription "" "TLS_ECDHE_ECDSA_WITH_AES_128_CBC_SHA" ok);
  (TLS_ECDHE_ECDSA_WITH_AES_256_CBC_SHA, mkDescription "" "TLS_ECDHE_ECDSA_WITH_AES_256_CBC_SHA" ok);
  (TLS_ECDHE_RSA_WITH_RC4_128_SHA, mkDescription "" "TLS_ECDHE_RSA_WITH_RC4_128_SHA" insecure);
  (TLS_ECDHE_RSA_WITH_3DES_EDE_CBC_SHA, mkDescription "" "TLS_ECDHE_RSA_WITH_3DES_EDE_CBC_SHA" insecure);
  (TLS_ECDHE_RSA_WITH_AES_128_CBC_SHA, mkDescription "" "TLS_ECDHE_RSA_WITH_AES_128_CBC_SHA" ok);
  (TLS_ECDHE_RSA_WITH_AES_256_CBC_SHA, mkDescription "" "TLS_ECDHE_RSA_WITH_AES_256_CBC_SHA" ok);
  (TLS_ECDHE_ECDSA_WITH_AES_128_CBC_SHA256, mkDescription "" "TLS_ECDHE_ECDSA_WITH_AES_128_CBC_SHA256" ok);
  (TLS_ECDHE_RSA_WITH_AES_128_CBC_SHA256, mkDescription "" "TLS_ECDHE_RSA_WITH_AES_128_CBC_SHA256" ok);
  (TLS_ECDHE_RSA_WITH_AES_128_GCM_SHA256, mkDescription "" "TLS_ECDHE_RSA_WITH_AES_128_GCM_SHA256" good);
  (TLS_ECDHE_ECDSA_WITH_AES_128_GCM_SHA256, mkDescription "" "TLS_ECDHE_ECDSA_WITH_AES_128_GCM_SHA256" good);
  (TLS_ECDHE_RSA_WITH_AES_256_GCM_SHA384, mkDescription "" "TLS_ECDHE_RSA_WITH_AES_256_GCM_SHA384" good);
  (TLS_ECDHE_ECDSA_WITH_AES_256_GCM_SHA384, mkDescription "" "TLS_ECDHE_ECDSA_WITH_AES_256_GCM_SHA384" good);
  (TLS_ECDHE_RSA_WITH_CHACHA20_POLY1305, mkDescription "" "TLS_ECDHE_RSA_WITH_CHACHA20_POLY1305" good);
  (TLS_ECDHE_ECDSA_WITH_CHACHA20_POLY1305, mkDescription "" "TLS_ECDHE_ECDSA_WITH_CHACHA20_POLY1305" good)
].

(** ** Operations *)

(** [lookup]: "Just a map lookup with a default". *)
Definition lookup (descriptions : gomap N description) (what : N) : description :=
  match map_get descriptions what with
  | Some v => v
  | None =>
      let unknown := "UNKNOWN_" ++ fmt_x what in
      mkDescription unknown unknown 0
  end.

(** [explainCipher]: split the slug on ["_WITH_"], take [kexAndCipher[0][4:]]
    and [kexAndCipher[1]]; each of the two accesses may panic. *)
Definition explainCipher (d : description) : option description :=
  let kexAndCipher := strings_Split (Slug d) "_WITH_" in
  match slice_index kexAndCipher 0 with
  | None => None
  | Some k0 =>
      match slice_from k0 (String.length "TLS_") with
      | None => None
      | Some kex =>
          match slice_index kexAndCipher 1 with
          | None => None
          | Some c =>
              Some (mkDescription (kex ++ " key exchange, " ++ c ++ " cipher")
                                  (Slug d) (Quality d))
          end
      end
  end.

(** [EncodeTLSToObject]: the two slugs, no name, no explainCipher. *)
Definition EncodeTLSToObject (t : ConnectionState) : TLSDescription :=
  let version := lookup tlsVersions (CS_Version t) in
  let cipher := lookup cipherSuites (CS_CipherSuite t) in
  mkTLSDescription (Slug version) (Slug cipher).

(** ** text/template, restricted to what [tlsLayout] uses

    A template is text with [{{.Field}}] actions.  [Parse] fails on an
    unclosed action; [Execute] fails on a field the data does not have. *)
Inductive node :=
  | TextNode (s : string)
  | FieldNode (field : string).

Fixpoint parse_fuel (fuel : nat) (s lit : string) : option (list node) :=
  match fuel with
  | O => None
  | S f =>
      match s with
      | EmptyString => Some [TextNode lit]
      | String c rest =>
          if String.prefix "{{." s then
            let body := str_drop 3 s in
            match index_of "}}" body with
            | None => None
            | Some k =>
                match parse_fuel f (str_drop (k + 2) body) "" with
                | Some ns => Some (TextNode lit :: FieldNode (str_take k body) :: ns)
                | None => None
                end
            end
          else parse_fuel f rest (lit ++ String c EmptyString)
      end
  end.

Definition template_Parse (s : string) : option (list node) :=
  parse_fuel (S (String.length s)) s "".

Definition field_of (d : TLSDescription) (f : string) : option string :=
  if String.eqb f "Version" then Some (Version d)
  else if String.eqb f "Cipher" then Some (Cipher d)
  else None.

Fixpoint template_Execute (t : list node) (d : TLSDescription) : option string :=
  match t with
  | [] => Some ""
  | TextNode s :: t' =>
      option_map (fun r => s ++ r) (template_Execute t' d)
  | FieldNode f :: t' =>
      match field_of d f, template_Execute t' d with
      | Some v, Some r => Some (v ++ r)
      | _, _ => None
      end
  end.

Definition nl : string := String (ascii_of_nat 10) EmptyString.

Definition tlsLayout : string :=
  "** TLS Connection **" ++ nl ++
  "Version: {{.Version}}" ++ nl ++
  "Cipher Suite: {{.Cipher}}".

(** ** Colouring and the text encoder

    The colours [red], [yellow], [green] and fatih/color's [SprintFunc]
    (which also depends on terminal detection) are outside this file:
    they are parameters of the section. *)
Section Render.

Variable Color : Type.
Variables red yellow green : Color.
Variable SprintFunc : Color -> string -> string.

Definition qualityColors : gomap N Color :=
  [(insecure, red); (ok, yellow); (good, green)].

Definition tlscolor (d : description) : string :=
  match map_get qualityColors (Quality d) with
  | None => Name d
  | Some c => SprintFunc c (Name d)
  end.

(** [EncodeTLSToText]; [None] is a panic (in [explainCipher] or in one
    of the two "Should never happen" template branches). *)
Definition EncodeTLSToText (tcs : ConnectionState) : option string :=
  let version := lookup tlsVersions (CS_Version tcs) in
  let cipher := lookup cipherSuites (CS_CipherSuite tcs) in
  match explainCipher cipher with
  | None => None
  | Some ec =>
      let description := mkTLSDescription (tlscolor version) (tlscolor ec) in
      match template_Parse tlsLayout with
      | None => None
      | Some t => template_Execute t description
      end
  end.

End Render.

Arguments qualityColors {Color} red yellow green.
Arguments tlscolor {Color} red yellow green SprintFunc d.
Arguments EncodeTLSToText {Color} red yellow green SprintFunc tcs.

(** ** Spec-side classification of a suite by its slug (used for the
    quality-tier claims). *)
Definition contains (needle s : string) : bool :=
  match index_of needle s with Some _ => true | None => false end.

Definition uses_rc4_or_3des (d : description) : bool :=
  contains "RC4" (Slug d) || contains "3DES" (Slug d).

Definition rsa_kex (d : description) : bool := String.prefix "TLS_RSA_" (Slug d).
Definition ecdhe_kex (d : description) : bool := String.prefix "TLS_ECDHE_" (Slug d).

Definition cbc_mode (d : description) : bool := contains "CBC" (Slug d).

Definition aead_suite (d : description) : bool :=
  contains "GCM" (Slug d) || contains "CHACHA20_POLY1305" (Slug d).

(** The tiering as the claim words it: RC4/3DES suites insecure, CBC
    suites with RSA or ECDHE key exchange acceptable, GCM and
    ChaCha20-Poly1305 suites good. *)
Definition quality_tiers_as_claimed : Prop :=
  forall k d, In (k, d) cipherSuites ->
    (uses_rc4_or_3des d = true -> Quality d = insecure) /\
    (cbc_mode d && (rsa_kex d || ecdhe_kex d) = true -> Quality d = ok) /\
    (aead_suite d = true -> Quality d = good).

(** A concrete colour treatment: an ANSI escape sequence around the text,
    as fatih/color's [SprintFunc] produces when colours are enabled. *)
Definition esc : string := String (ascii_of_nat 27) EmptyString.

Definition ansi_sprint (code : string) (s : string) : string :=
  (esc ++ "[" ++ code ++ "m") ++ s ++ (esc ++ "[0m").

(** ** Lowercase hexadecimal digits and their value *)
Definition is_lower_hex (c : ascii) : bool :=
  let n := nat_of_ascii c in
  (Nat.leb 48 n && Nat.leb n 57) || (Nat.leb 97 n && Nat.leb n 102).

Fixpoint all_lower_hex (s : string) : bool :=
  match s with
  | EmptyString => true
  | String c s' => is_lower_hex c && all_lower_hex s'
  end.

Definition digit_val (c : ascii) : N :=
  let n := N.of_nat (nat_of_ascii c) in
  if (n <=? 57)%N then (n - 48)%N else (n - 87)%N.

Fixpoint hex_val_acc (v : N) (s : string) : N :=
  match s with
  | EmptyString => v
  | String c s' => hex_val_acc (v * 16 + digit_val c)%N s'
  end.

Definition hex_val (s : string) : N := hex_val_acc 0 s.

(** * Lemmas *)

Lemma str_length_app : forall a b : string,
  String.length (a ++ b) = String.length a + String.length b.
Proof. induction a as [|c a IH]; intros b; simpl; [reflexivity | now rewrite IH]. Qed.

Lemma str_app_assoc : forall a b c : string, (a ++ b) ++ c = a ++ (b ++ c).
Proof. induction a as [|x a IH]; intros b c; simpl; [reflexivity | now rewrite IH]. Qed.

Lemma str_take_app : forall a b, str_take (String.length a) (a ++ b) = a.
Proof. induction a as [|c a IH]; intros b; simpl; [reflexivity | now rewrite IH]. Qed.

Lemma str_drop_app : forall a b, str_drop (String.length a) (a ++ b) = b.
Proof. induction a as [|c a IH]; intros b; simpl; [reflexivity | apply IH]. Qed.

Lemma index_of_hd : forall sep s, index_of sep s = hd_error (occurrences sep s).
Proof.
  intros sep s; induction s as [|c s IH]; cbn [index_of occurrences].
  - destruct (String.prefix sep ""); reflexivity.
  - destruct (String.prefix sep (String c s)); [reflexivity|].
    simpl. rewrite IH. destruct (occurrences sep s); reflexivity.
Qed.

Lemma occurrences_app : forall sep a b y,
  In y (occurrences sep b) -> In (String.length a + y) (occurrences sep (a ++ b)).
Proof.
  intros sep a; induction a as [|c a IH]; intros b y Hy; simpl; [exact Hy|].
  apply in_or_app; right. apply in_map. now apply IH.
Qed.

Lemma occurrences_none_after : forall sep a b,
  (forall y, In y (occurrences sep (a ++ b)) -> y < String.length a) ->
  index_of sep b = None.
Proof.
  intros sep a b H. rewrite index_of_hd.
  destruct (occurrences sep b) as [|y ys] eqn:E; [reflexivity|].
  exfalso. assert (Hy : In y (occurrences sep b)) by (rewrite E; left; reflexivity).
  specialize (H _ (occurrences_app sep a b y Hy)). lia.
Qed.

Lemma map_get_In : forall {V} (m : gomap N V) k v,
  NoDup (map fst m) -> In (k, v) m -> map_get m k = Some v.
Proof.
  intros V m; induction m as [|[k' v'] m IH]; intros k v Hnd Hin; [destruct Hin|].
  inversion Hnd as [|? ? Hnot Hnd']; subst.
  unfold map_get; simpl.
  destruct Hin as [Heq|Hin].
  - injection Heq as -> ->. now rewrite N.eqb_refl.
  - destruct (N.eqb_spec k' k) as [->|Hne].
    + exfalso. apply Hnot. change k with (fst (k, v)). now apply in_map.
    + apply IH; assumption.
Qed.

Lemma map_get_notin : forall {V} (m : gomap N V) k,
  ~ In k (map fst m) -> map_get m k = None.
Proof.
  intros V m k; induction m as [|[k' v'] m IH]; intros Hnot; [reflexivity|].
  unfold map_get; simpl.
  destruct (N.eqb_spec k' k) as [->|Hne].
  - exfalso. apply Hnot. left. reflexivity.
  - apply IH. intros H. apply Hnot. right. exact H.
Qed.

Ltac nodup_keys :=
  cbv [map fst tlsVersions cipherSuites]; repeat constructor; cbn;
  unfold VersionSSL30, VersionTLS10, VersionTLS11, VersionTLS12 in *;
  intuition discriminate.

Ltac registry_cases H :=
  cbv [cipherSuites In] in H;
  repeat (destruct H as [H|H]; [injection H as <- <-|]); [..|destruct H].

Lemma tlsVersions_keys_NoDup : NoDup (map fst tlsVersions).
Proof. nodup_keys. Qed.

Lemma cipherSuites_keys_NoDup : NoDup (map fst cipherSuites).
Proof. nodup_keys. Qed.

(** ** [fmt_x] is the lowercase hexadecimal rendering *)

Lemma hex_digit_lower : forall d, (d < 16)%N -> is_lower_hex (hex_digit d) = true.
Proof.
  intros d Hd. unfold hex_digit.
  assert (Hn : N.to_nat d < 16) by lia.
  destruct (N.to_nat d) as [|n]; [reflexivity|].
  do 15 (destruct n as [|n]; [reflexivity|]). lia.
Qed.

Lemma digit_val_hex_digit : forall d, (d < 16)%N -> digit_val (hex_digit d) = d.
Proof.
  intros d Hd. unfold hex_digit.
  rewrite <- (N2Nat.id d). assert (Hn : N.to_nat d < 16) by lia.
  rewrite Nat2N.id.
  destruct (N.to_nat d) as [|n]; [reflexivity|].
  do 15 (destruct n as [|n]; [reflexivity|]). lia.
Qed.

Lemma fmt_hex_loop_lower : forall f u acc,
  (u < 16 ^ N.of_nat (S f))%N -> all_lower_hex acc = true ->
  all_lower_hex (fmt_hex_loop f u acc) = true.
Proof.
  induction f as [|f IH]; intros u acc Hu Hacc; simpl.
  - rewrite hex_digit_lower by (simpl in Hu; lia). exact Hacc.
  - destruct (16 <=? u)%N eqn:E.
    + apply IH.
      * apply N.Div0.div_lt_upper_bound.
        rewrite Nat2N.inj_succ, N.pow_succ_r' in Hu. exact Hu.
      * simpl. rewrite hex_digit_lower by (apply N.mod_lt; discriminate).
        exact Hacc.
    + apply N.leb_gt in E. simpl. rewrite hex_digit_lower by exact E. exact Hacc.
Qed.

Lemma hex_val_acc_shift : forall s v,
  hex_val_acc v s = (v * 16 ^ N.of_nat (String.length s) + hex_val_acc 0 s)%N.
Proof.
  induction s as [|c s IH]; intros v; cbn [hex_val_acc String.length].
  - lia.
  - rewrite (IH (v * 16 + digit_val c)%N), (IH (0 * 16 + digit_val c)%N).
    rewrite Nat2N.inj_succ, N.pow_succ_r'. lia.
Qed.

Lemma hex_val_cons : forall c s,
  hex_val (String c s) = (digit_val c * 16 ^ N.of_nat (String.length s) + hex_val s)%N.
Proof.
  intros c s. unfold hex_val. simpl. rewrite hex_val_acc_shift. reflexivity.
Qed.

Lemma fmt_hex_loop_val : forall f u acc,
  (u < 16 ^ N.of_nat (S f))%N ->
  hex_val (fmt_hex_loop f u acc)
  = (u * 16 ^ N.of_nat (String.length acc) + hex_val acc)%N.
Proof.
  induction f as [|f IH]; intros u acc Hu; simpl.
  - rewrite hex_val_cons, digit_val_hex_digit by (simpl in Hu; lia). reflexivity.
  - destruct (16 <=? u)%N eqn:E.
    + rewrite IH.
      2:{ apply N.Div0.div_lt_upper_bound.
          rewrite Nat2N.inj_succ, N.pow_succ_r' in Hu. exact Hu. }
      rewrite hex_val_cons, digit_val_hex_digit by (apply N.mod_lt; discriminate).
      simpl String.length. rewrite Nat2N.inj_succ, N.pow_succ_r'.
      pose proof (N.div_mod u 16 ltac:(discriminate)) as Hdm. nia.
    + apply N.leb_gt in E.
      rewrite hex_val_cons, digit_val_hex_digit by exact E. reflexivity.
Qed.

Lemma fmt_hex_loop_nonempty : forall f u a, fmt_hex_loop f u a <> "".
Proof.
  induction f as [|f IH]; intros u a; simpl; [discriminate|].
  destruct (16 <=? u)%N; [apply IH | discriminate].
Qed.

Lemma fmt_x_uint16 : forall w, (w < 65536)%N ->
  all_lower_hex (fmt_x w) = true /\ hex_val (fmt_x w) = w /\ fmt_x w <> "".
Proof.
  intros w Hw.
  assert (Hb : (w < 16 ^ N.of_nat (S 16))%N) by (simpl; lia).
  unfold fmt_x. split; [|split].
  - apply fmt_hex_loop_lower; [exact Hb | reflexivity].
  - rewrite fmt_hex_loop_val by exact Hb.
    simpl String.length. rewrite N.pow_0_r. change (hex_val "") with 0%N. lia.
  - apply fmt_hex_loop_nonempty.
Qed.

(** ** [explainCipher] on a well-formed slug *)

Lemma explainCipher_wellformed : forall kex cipher n q,
  let slug := "TLS_" ++ kex ++ "_WITH_" ++ cipher in
  occurrences "_WITH_" slug = [4 + String.length kex] ->
  explainCipher (mkDescription n slug q)
  = Some (mkDescription (kex ++ " key exchange, " ++ cipher ++ " cipher") slug q).
Proof.
  intros kex cipher n q slug Hocc.
  assert (Hidx : index_of "_WITH_" slug = Some (4 + String.length kex))
    by (rewrite index_of_hd, Hocc; reflexivity).
  assert (Hsplit1 : slug = ("TLS_" ++ kex) ++ ("_WITH_" ++ cipher))
    by (unfold slug; now rewrite str_app_assoc).
  assert (Hsplit2 : slug = ("TLS_" ++ kex ++ "_WITH_") ++ cipher)
    by (unfold slug; now rewrite !str_app_assoc).
  assert (Hnone : index_of "_WITH_" cipher = None).
  { apply (occurrences_none_after _ ("TLS_" ++ kex ++ "_WITH_")).
    rewrite <- Hsplit2, Hocc. intros y [<-|[]].
    rewrite str_length_app. simpl. rewrite str_length_app. simpl. lia. }
  assert (Htake : str_take (4 + String.length kex) slug = "TLS_" ++ kex).
  { rewrite Hsplit1. apply (str_take_app ("TLS_" ++ kex)). }
  assert (Hdrop : str_drop (4 + String.length kex + String.length "_WITH_") slug = cipher).
  { rewrite Hsplit2.
    replace (4 + String.length kex + String.length "_WITH_")
      with (String.length ("TLS_" ++ kex ++ "_WITH_"))
      by (rewrite str_length_app; simpl; rewrite str_length_app; simpl; lia).
    apply str_drop_app. }
  assert (Hlen : exists L, String.length slug = S L)
    by (unfold slug; simpl; eexists; reflexivity).
  destruct Hlen as [L HL].
  unfold explainCipher, strings_Split. cbn [Slug Quality]. rewrite HL.
  cbn [split_fuel]. rewrite Hidx, Htake, Hdrop.
  destruct L as [|L]; cbn [split_fuel]; rewrite ?Hnone;
    unfold slice_index, slice_from; simpl; reflexivity.
Qed.

(** ** [explainCipher] on a placeholder slug [UNKNOWN_<hex>] *)

Lemma str_app_nil_r : forall s : string, s ++ "" = s.
Proof. induction s as [|c s IH]; simpl; [reflexivity | now rewrite IH]. Qed.

Lemma index_of_cons_false : forall sep c s,
  String.prefix sep (String c s) = false ->
  index_of sep (String c s) = option_map S (index_of sep s).
Proof.
  intros sep c s H.
  change (index_of sep (String c s))
    with (if String.prefix sep (String c s) then Some 0
          else option_map S (index_of sep s)).
  rewrite H. reflexivity.
Qed.

Lemma index_of_WITH_hex : forall h, all_lower_hex h = true -> index_of "_WITH_" h = None.
Proof.
  induction h as [|c h IH]; intros Hh; [reflexivity|].
  simpl in Hh. apply andb_prop in Hh as [Hc Hh].
  rewrite index_of_cons_false.
  - rewrite IH by exact Hh. reflexivity.
  - cbn [String.prefix].
    destruct (ascii_dec "_" c) as [<-|_]; [discriminate Hc | reflexivity].
Qed.

Lemma prefix_WITH_hex : forall h, all_lower_hex h = true -> String.prefix "WITH_" h = false.
Proof.
  intros [|c h] Hh; [reflexivity|].
  simpl in Hh. apply andb_prop in Hh as [Hc _].
  cbn [String.prefix].
  destruct (ascii_dec "W" c) as [<-|_]; [discriminate Hc | reflexivity].
Qed.

Lemma index_of_WITH_unknown : forall h,
  all_lower_hex h = true -> index_of "_WITH_" ("UNKNOWN_" ++ h) = None.
Proof.
  intros h Hh. cbn [String.append].
  do 7 (rewrite index_of_cons_false; [|reflexivity]).
  rewrite index_of_cons_false.
  - rewrite index_of_WITH_hex by exact Hh. reflexivity.
  - cbn [String.prefix]. apply prefix_WITH_hex, Hh.
Qed.

Lemma explainCipher_unknown : forall n h q,
  all_lower_hex h = true -> explainCipher (mkDescription n ("UNKNOWN_" ++ h) q) = None.
Proof.
  intros n h q Hh. unfold explainCipher, strings_Split. cbn [Slug split_fuel].
  rewrite index_of_WITH_unknown by exact Hh. reflexivity.
Qed.

(** A cipher-suite identifier missing from [cipherSuites] makes the text
    encoder panic, whatever the version. *)
Lemma EncodeTLSToText_unknown_cipher : forall Color red yellow green SprintFunc v c,
  (c < 65536)%N -> ~ In c (map fst cipherSuites) ->
  @EncodeTLSToText Color red yellow green SprintFunc (mkConnectionState v c) = None.
Proof.
  intros Color red yellow green SprintFunc v c Hc Hnot.
  assert (Hl : lookup cipherSuites c
               = mkDescription ("UNKNOWN_" ++ fmt_x c) ("UNKNOWN_" ++ fmt_x c) 0)
    by (unfold lookup; rewrite (map_get_notin _ _ Hnot); reflexivity).
  unfold EncodeTLSToText. cbn [CS_CipherSuite]. rewrite Hl.
  destruct (fmt_x_uint16 c Hc) as [Hhex _].
  rewrite explainCipher_unknown by exact Hhex. reflexivity.
Qed.

(** * Claims *)

(** ** C1 (code bug): the text encoder is not total.  For TLS 1.2 and the
    cipher-suite identifier 0x0000, absent from [cipherSuites], [lookup]
    yields the placeholder slug ["UNKNOWN_0"], which has no ["_WITH_"];
    [explainCipher] then reads [kexAndCipher[1]] out of range and panics. *)
Theorem EncodeTLSToText_panics_on_unknown_suite :
  forall Color (red yellow green : Color) SprintFunc,
  EncodeTLSToText red yellow green SprintFunc
    (mkConnectionState VersionTLS12 0) = None.
Proof. intros. reflexivity. Qed.

(** ** C3: for an identifier absent from a registry, [lookup] returns the
    placeholder whose name and slug are ["UNKNOWN_"] followed by the
    lowercase hexadecimal rendering of the identifier, with quality
    [insecure], the lowest tier. *)
Theorem lookup_unknown_placeholder :
  forall (registry : gomap N description) (what : N),
  (what < 65536)%N -> ~ In what (map fst registry) ->
  lookup registry what
    = mkDescription ("UNKNOWN_" ++ fmt_x what) ("UNKNOWN_" ++ fmt_x what) insecure
  /\ fmt_x what <> ""
  /\ all_lower_hex (fmt_x what) = true
  /\ hex_val (fmt_x what) = what
  /\ (forall q : N, (insecure <= q)%N).
Proof.
  intros registry what Hw Hnot.
  destruct (fmt_x_uint16 what Hw) as (Hhex & Hval & Hne).
  split; [|split; [exact Hne | split; [exact Hhex | split; [exact Hval|]]]].
  - unfold lookup. rewrite (map_get_notin _ _ Hnot). reflexivity.
  - intros q. unfold insecure. lia.
Qed.

Lemma lookup_unknown_placeholder_witness :
  lookup cipherSuites 0xbeef
  = mkDescription "UNKNOWN_beef" "UNKNOWN_beef" insecure.
Proof.
  apply (lookup_unknown_placeholder cipherSuites 0xbeef).
  - vm_compute. reflexivity.
  - cbv [map fst cipherSuites]. cbn. intuition discriminate.
Defined.

(** ** C4: for a registered identifier, [lookup] returns the registered
    description unchanged, in both registries. *)
Theorem lookup_registered : forall (k : N) (d : description),
  (In (k, d) tlsVersions -> lookup tlsVersions k = d) /\
  (In (k, d) cipherSuites -> lookup cipherSuites k = d).
Proof.
  intros k d. split; intros Hin; unfold lookup.
  - rewrite (map_get_In _ _ _ tlsVersions_keys_NoDup Hin). reflexivity.
  - rewrite (map_get_In _ _ _ cipherSuites_keys_NoDup Hin). reflexivity.
Qed.

Lemma lookup_registered_witness :
  lookup tlsVersions VersionTLS11 = mkDescription "TLS 1.1" "tls_1_1" ok /\
  lookup cipherSuites TLS_ECDHE_RSA_WITH_AES_128_GCM_SHA256
    = mkDescription "" "TLS_ECDHE_RSA_WITH_AES_128_GCM_SHA256" good.
Proof.
  split.
  - apply (lookup_registered VersionTLS11 (mkDescription "TLS 1.1" "tls_1_1" ok)).
    simpl. tauto.
  - apply (lookup_registered TLS_ECDHE_RSA_WITH_AES_128_GCM_SHA256
             (mkDescription "" "TLS_ECDHE_RSA_WITH_AES_128_GCM_SHA256" good)).
    simpl. tauto.
Defined.

(** ** C5: on a slug [TLS_<kex>_WITH_<cipher>] with a single ["_WITH_"],
    [explainCipher] sets the name to ["<kex> key exchange, <cipher> cipher"];
    in particular on ["TLS_RSA_WITH_AES_128_GCM_SHA256"]. *)
Theorem explainCipher_name :
  (forall kex cipher n q,
     occurrences "_WITH_" ("TLS_" ++ kex ++ "_WITH_" ++ cipher)
       = [4 + String.length kex] ->
     explainCipher (mkDescription n ("TLS_" ++ kex ++ "_WITH_" ++ cipher) q)
     = Some (mkDescription (kex ++ " key exchange, " ++ cipher ++ " cipher")
                           ("TLS_" ++ kex ++ "_WITH_" ++ cipher) q)) /\
  (forall n q,
     option_map Name
       (explainCipher (mkDescription n "TLS_RSA_WITH_AES_128_GCM_SHA256" q))
     = Some "RSA key exchange, AES_128_GCM_SHA256 cipher").
Proof.
  split.
  - intros kex cipher n q H. exact (explainCipher_wellformed kex cipher n q H).
  - intros n q.
    pose proof (explainCipher_wellformed "RSA" "AES_128_GCM_SHA256" n q eq_refl) as E.
    cbn zeta in E. simpl String.append in E. rewrite E. reflexivity.
Qed.

Lemma explainCipher_name_witness :
  explainCipher (mkDescription "" "TLS_ECDHE_ECDSA_WITH_CHACHA20_POLY1305" good)
  = Some (mkDescription "ECDHE_ECDSA key exchange, CHACHA20_POLY1305 cipher"
                        "TLS_ECDHE_ECDSA_WITH_CHACHA20_POLY1305" good).
Proof.
  exact (proj1 explainCipher_name "ECDHE_ECDSA" "CHACHA20_POLY1305" "" good eq_refl).
Defined.

(** ** C6: the structured encoder carries exactly the two slugs of the
    resolved descriptions; for TLS 1.2 and
    TLS_ECDHE_RSA_WITH_AES_128_GCM_SHA256 these are ["tls_1_2"] and
    ["TLS_ECDHE_RSA_WITH_AES_128_GCM_SHA256"]. *)
Theorem EncodeTLSToObject_slugs :
  (forall v c : N,
     EncodeTLSToObject (mkConnectionState v c)
     = mkTLSDescription (Slug (lookup tlsVersions v)) (Slug (lookup cipherSuites c))) /\
  EncodeTLSToObject
    (mkConnectionState VersionTLS12 TLS_ECDHE_RSA_WITH_AES_128_GCM_SHA256)
  = mkTLSDescription "tls_1_2" "TLS_ECDHE_RSA_WITH_AES_128_GCM_SHA256".
Proof. split; [intros v c|]; reflexivity. Qed.

(** ** C9: [explainCipher] changes only the name: the result, when there
    is one, has the slug and quality of its input. *)
Theorem explainCipher_frame : forall d d',
  explainCipher d = Some d' -> Slug d' = Slug d /\ Quality d' = Quality d.
Proof.
  intros d d' H. unfold explainCipher in H.
  destruct (slice_index _ 0) as [k0|]; [|discriminate].
  destruct (slice_from k0 _) as [kex|]; [|discriminate].
  destruct (slice_index _ 1) as [c|]; [|discriminate].
  injection H as <-. split; reflexivity.
Qed.

Lemma explainCipher_frame_witness :
  Slug (mkDescription "RSA key exchange, RC4_128_SHA cipher" "TLS_RSA_WITH_RC4_128_SHA" insecure)
    = "TLS_RSA_WITH_RC4_128_SHA" /\
  Quality (mkDescription "RSA key exchange, RC4_128_SHA cipher" "TLS_RSA_WITH_RC4_128_SHA" insecure)
    = insecure.
Proof.
  apply (explainCipher_frame (mkDescription "" "TLS_RSA_WITH_RC4_128_SHA" insecure)).
  reflexivity.
Defined.

(** ** C2: quality tiers of the cipher-suite registry *)

(** C2 counterexample: TLS_RSA_WITH_AES_128_GCM_SHA256 is a GCM suite whose quality is [ok]. *)
Lemma quality_tiers_counterexample : ~ quality_tiers_as_claimed.
Proof.
  intros H.
  destruct (H TLS_RSA_WITH_AES_128_GCM_SHA256
              (mkDescription "" "TLS_RSA_WITH_AES_128_GCM_SHA256" ok))
    as (_ & _ & Hgood).
  - cbv [cipherSuites In]. do 5 right. left. reflexivity.
  - specialize (Hgood eq_refl). discriminate Hgood.
Qed.

(** C2 (amended), as the registry has it: RC4/3DES suites are insecure; the other CBC
    suites (AES-CBC) with RSA or ECDHE key exchange are acceptable; GCM and
    ChaCha20-Poly1305 suites are good with ECDHE key exchange and
    acceptable with plain RSA key exchange. *)
Theorem cipherSuites_quality_tiers : forall k d, In (k, d) cipherSuites ->
  (uses_rc4_or_3des d = true -> Quality d = insecure) /\
  (cbc_mode d && negb (uses_rc4_or_3des d) && (rsa_kex d || ecdhe_kex d) = true ->
     Quality d = ok) /\
  (aead_suite d && ecdhe_kex d = true -> Quality d = good) /\
  (aead_suite d && rsa_kex d = true -> Quality d = ok).
Proof.
  intros k d H. registry_cases H;
    vm_compute; repeat split; intros Hx; first [reflexivity | discriminate Hx].
Qed.

Lemma cipherSuites_quality_tiers_witness :
  Quality (mkDescription "" "TLS_RSA_WITH_AES_256_GCM_SHA384" ok) = ok.
Proof.
  apply (proj2 (proj2 (proj2 (cipherSuites_quality_tiers TLS_RSA_WITH_AES_256_GCM_SHA384
           (mkDescription "" "TLS_RSA_WITH_AES_256_GCM_SHA384" ok) ltac:(cbv [cipherSuites In]; do 6 right; left; reflexivity))))).
  reflexivity.
Defined.

(** ** C7: the text rendering of TLS 1.2 with
    TLS_ECDHE_RSA_WITH_AES_128_GCM_SHA256: header line, then the coloured
    version name after ["Version: "], then the coloured derived cipher name
    after ["Cipher Suite: "]; when the colour treatment wraps its argument,
    the plain names appear in those lines. *)
Theorem EncodeTLSToText_tls12_ecdhe :
  forall Color (red yellow green : Color) SprintFunc,
  let out := EncodeTLSToText red yellow green SprintFunc
               (mkConnectionState VersionTLS12 TLS_ECDHE_RSA_WITH_AES_128_GCM_SHA256) in
  out = Some ("** TLS Connection **" ++ nl ++
              "Version: " ++ SprintFunc green "TLS 1.2" ++ nl ++
              "Cipher Suite: " ++
              SprintFunc green "ECDHE_RSA key exchange, AES_128_GCM_SHA256 cipher") /\
  ((forall c s, exists pre post, SprintFunc c s = pre ++ s ++ post) ->
   exists p1 q1 p2 q2,
     out = Some ("** TLS Connection **" ++ nl ++
                 "Version: " ++ p1 ++ "TLS 1.2" ++ q1 ++ nl ++
                 "Cipher Suite: " ++ p2 ++
                 "ECDHE_RSA key exchange, AES_128_GCM_SHA256 cipher" ++ q2)).
Proof.
  intros Color red yellow green SprintFunc out.
  assert (E : out = Some ("** TLS Connection **" ++ nl ++
              "Version: " ++ SprintFunc green "TLS 1.2" ++ nl ++
              "Cipher Suite: " ++
              SprintFunc green "ECDHE_RSA key exchange, AES_128_GCM_SHA256 cipher")).
  { unfold out, EncodeTLSToText. cbn.
    rewrite str_app_nil_r. reflexivity. }
  split; [exact E|].
  intros Hwrap.
  destruct (Hwrap green "TLS 1.2") as (p1 & q1 & H1).
  destruct (Hwrap green "ECDHE_RSA key exchange, AES_128_GCM_SHA256 cipher")
    as (p2 & q2 & H2).
  exists p1, q1, p2, q2. rewrite E, H1, H2.
  rewrite <- !str_app_assoc. reflexivity.
Qed.

Lemma EncodeTLSToText_tls12_ecdhe_witness :
  exists p1 q1 p2 q2,
    EncodeTLSToText "1;31" "1;33" "1;32" ansi_sprint
      (mkConnectionState VersionTLS12 TLS_ECDHE_RSA_WITH_AES_128_GCM_SHA256)
    = Some ("** TLS Connection **" ++ nl ++
            "Version: " ++ p1 ++ "TLS 1.2" ++ q1 ++ nl ++
            "Cipher Suite: " ++ p2 ++
            "ECDHE_RSA key exchange, AES_128_GCM_SHA256 cipher" ++ q2).
Proof.
  apply (proj2 (EncodeTLSToText_tls12_ecdhe string "1;31" "1;33" "1;32" ansi_sprint)).
  intros c s. exists (esc ++ "[" ++ c ++ "m"), (esc ++ "[0m"). reflexivity.
Defined.

(** ** C8: [tlscolor] wraps the name in the colour of its tier, and
    returns the plain name for a tier missing from [qualityColors]. *)
Theorem tlscolor_quality :
  forall Color (red yellow green : Color) SprintFunc (d : description),
  (Quality d = insecure -> tlscolor red yellow green SprintFunc d = SprintFunc red (Name d)) /\
  (Quality d = ok -> tlscolor red yellow green SprintFunc d = SprintFunc yellow (Name d)) /\
  (Quality d = good -> tlscolor red yellow green SprintFunc d = SprintFunc green (Name d)) /\
  ((good < Quality d)%N -> tlscolor red yellow green SprintFunc d = Name d).
Proof.
  intros Color red yellow green SprintFunc [n s q]; cbn [Quality Name].
  unfold tlscolor, qualityColors, map_get; cbn [Quality Name find fst].
  repeat split; intros Hq; try (subst q; reflexivity).
  unfold good in Hq.
  destruct (N.eqb_spec insecure q) as [E|_]; [unfold insecure in E; lia|].
  destruct (N.eqb_spec ok q) as [E|_]; [unfold ok in E; lia|].
  destruct (N.eqb_spec good q) as [E|_]; [unfold good in E; lia|].
  reflexivity.
Qed.

Lemma tlscolor_quality_witness :
  tlscolor "1;31" "1;33" "1;32" ansi_sprint (mkDescription "TLS 1.1" "tls_1_1" ok)
    = ansi_sprint "1;33" "TLS 1.1" /\
  tlscolor "1;31" "1;33" "1;32" ansi_sprint (mkDescription "X" "x" 7) = "X".
Proof.
  split.
  - apply (tlscolor_quality string "1;31" "1;33" "1;32" ansi_sprint
             (mkDescription "TLS 1.1" "tls_1_1" ok)). reflexivity.
  - apply (tlscolor_quality string "1;31" "1;33" "1;32" ansi_sprint
             (mkDescription "X" "x" 7)). vm_compute. reflexivity.
Defined.

(** ** C10: every registry suite has an empty name and a slug starting with
    ["TLS_"] with exactly one ["_WITH_"]; [explainCipher] succeeds on it
    and yields a non-empty name. *)
Theorem cipherSuites_wellformed : forall k d, In (k, d) cipherSuites ->
  Name d = "" /\
  String.prefix "TLS_" (Slug d) = true /\
  List.length (occurrences "_WITH_" (Slug d)) = 1 /\
  exists d', explainCipher d = Some d' /\ Name d' <> "".
Proof.
  intros k d H. registry_cases H;
    (split; [reflexivity|split; [reflexivity|split; [reflexivity|]]]);
    vm_compute; (eexists; split; [reflexivity | discriminate]).
Qed.

Lemma cipherSuites_wellformed_witness :
  exists d', explainCipher (mkDescription "" "TLS_RSA_WITH_3DES_EDE_CBC_SHA" insecure) = Some d'
             /\ Name d' <> "".
Proof.
  apply (cipherSuites_wellformed TLS_RSA_WITH_3DES_EDE_CBC_SHA
           (mkDescription "" "TLS_RSA_WITH_3DES_EDE_CBC_SHA" insecure)).
  cbv [cipherSuites In]. right. left. reflexivity.
Defined.

(** * Further properties of [lib/tls.go] *)

(** ** Splitting and the shape of [explainCipher] *)

Lemma prefix_decompose : forall p t,
  String.prefix p t = true -> t = p ++ str_drop (String.length p) t.
Proof.
  induction p as [|a p IH]; intros t H; [reflexivity|].
  destruct t as [|b t]; [discriminate H|].
  cbn [String.prefix] in H.
  destruct (ascii_dec a b) as [<-|_]; [|discriminate H].
  cbn [String.append String.length str_drop]. f_equal. apply IH, H.
Qed.

Lemma index_of_decompose : forall sep s m,
  index_of sep s = Some m ->
  s = str_take m s ++ sep ++ str_drop (m + String.length sep) s.
Proof.
  intros sep s; induction s as [|c s IH]; intros m H.
  - change (index_of sep "") with (if String.prefix sep "" then Some 0 else None) in H.
    destruct (String.prefix sep "") eqn:P; [|discriminate H].
    injection H as <-. cbn [str_take String.append].
    exact (prefix_decompose sep "" P).
  - destruct (String.prefix sep (String c s)) eqn:P.
    + change (index_of sep (String c s))
        with (if String.prefix sep (String c s) then Some 0
              else option_map S (index_of sep s)) in H.
      rewrite P in H. injection H as <-.
      exact (prefix_decompose sep _ P).
    + rewrite index_of_cons_false in H by exact P.
      destruct (index_of sep s) as [m'|] eqn:E; [|discriminate H].
      injection H as <-. cbn [str_take str_drop Nat.add String.append].
      f_equal. apply IH. reflexivity.
Qed.

Lemma index_of_le : forall sep s m, index_of sep s = Some m -> m <= String.length s.
Proof.
  intros sep s; induction s as [|c s IH]; intros m H.
  - change (index_of sep "") with (if String.prefix sep "" then Some 0 else None) in H.
    destruct (String.prefix sep ""); [|discriminate H]. injection H as <-. simpl; lia.
  - destruct (String.prefix sep (String c s)) eqn:P.
    + change (index_of sep (String c s))
        with (if String.prefix sep (String c s) then Some 0
              else option_map S (index_of sep s)) in H.
      rewrite P in H. injection H as <-. lia.
    + rewrite index_of_cons_false in H by exact P.
      destruct (index_of sep s) as [m'|] eqn:E; [|discriminate H].
      injection H as <-. simpl. specialize (IH m' eq_refl). lia.
Qed.

Lemma str_take_length : forall m s,
  m <= String.length s -> String.length (str_take m s) = m.
Proof.
  induction m as [|m IH]; intros [|c s] H; simpl in *; try lia.
  f_equal. apply IH. lia.
Qed.

Lemma split_fuel_nonempty : forall f sep s, split_fuel f sep s <> [].
Proof.
  intros [|f] sep s; simpl; [discriminate|].
  destruct (index_of sep s); discriminate.
Qed.

Lemma concat_split_fuel : forall f sep s,
  String.concat sep (split_fuel f sep s) = s.
Proof.
  induction f as [|f IH]; intros sep s; [reflexivity|].
  cbn [split_fuel]. destruct (index_of sep s) as [m|] eqn:E; [|reflexivity].
  pose proof (split_fuel_nonempty f sep (str_drop (m + String.length sep) s)) as Hne.
  destruct (split_fuel f sep (str_drop (m + String.length sep) s)) as [|x xs] eqn:Es;
    [congruence|].
  change (String.concat sep (str_take m s :: x :: xs))
    with (str_take m s ++ sep ++ String.concat sep (x :: xs)).
  rewrite <- Es, IH. symmetry. apply index_of_decompose, E.
Qed.

(** [explainCipher] reads only the slug and the quality. *)
Lemma explainCipher_ignores_name : forall n d,
  explainCipher (mkDescription n (Slug d) (Quality d)) = explainCipher d.
Proof. intros n [n' s q]. reflexivity. Qed.

Lemma explainCipher_result : forall d d',
  explainCipher d = Some d' -> d' = mkDescription (Name d') (Slug d) (Quality d).
Proof.
  intros d d' H. unfold explainCipher in H.
  destruct (slice_index _ 0) as [k0|]; [|discriminate].
  destruct (slice_from k0 _) as [kex|]; [|discriminate].
  destruct (slice_index _ 1) as [c|]; [|discriminate].
  injection H as <-. reflexivity.
Qed.

Lemma explainCipher_none_iff : forall d,
  explainCipher d = None <->
  (index_of "_WITH_" (Slug d) = None \/
   exists m, index_of "_WITH_" (Slug d) = Some m /\ m < 4).
Proof.
  intros [n s q]. unfold explainCipher, strings_Split. cbn [Slug split_fuel].
  destruct (index_of "_WITH_" s) as [m|] eqn:E.
  - pose proof (split_fuel_nonempty (String.length s) "_WITH_"
                  (str_drop (m + String.length "_WITH_") s)) as Hne.
    destruct (split_fuel (String.length s) "_WITH_"
                (str_drop (m + String.length "_WITH_") s)) as [|x xs]; [congruence|].
    cbn [slice_index nth_error]. unfold slice_from.
    rewrite (str_take_length m s (index_of_le _ _ _ E)).
    destruct (Nat.leb_spec (String.length "TLS_") m) as [Hm|Hm]; cbn in Hm.
    + split; [discriminate|]. intros [H|(m' & H & Hlt)]; [discriminate H|].
      injection H as <-. lia.
    + split; [intros _; right; exists m; split; [reflexivity|lia]|reflexivity].
  - cbn [slice_index nth_error]. unfold slice_from.
    destruct (Nat.leb _ _); split; intros; auto.
Qed.

(** ** The template of [EncodeTLSToText] *)

Lemma tlsLayout_render : exists t,
  template_Parse tlsLayout = Some t /\
  forall d, template_Execute t d
            = Some ("** TLS Connection **" ++ nl ++ "Version: " ++ Version d ++ nl ++
                    "Cipher Suite: " ++ Cipher d).
Proof.
  eexists. split; [reflexivity|].
  intros [v c]. cbn. rewrite str_app_nil_r. reflexivity.
Qed.

Lemma cipherSuites_explain_some : forall k d,
  In (k, d) cipherSuites -> exists d', explainCipher d = Some d'.
Proof.
  intros k d H. registry_cases H; vm_compute; eexists; reflexivity.
Qed.

Lemma EncodeTLSToText_registered_cipher :
  forall Color (red yellow green : Color) SprintFunc v c,
  In c (map fst cipherSuites) ->
  exists d', explainCipher (lookup cipherSuites c) = Some d' /\
    EncodeTLSToText red yellow green SprintFunc (mkConnectionState v c)
    = Some ("** TLS Connection **" ++ nl ++
            "Version: " ++ tlscolor red yellow green SprintFunc (lookup tlsVersions v) ++ nl ++
            "Cipher Suite: " ++ tlscolor red yellow green SprintFunc d').
Proof.
  intros Color red yellow green SprintFunc v c Hin.
  apply in_map_iff in Hin as ([c' d] & Hc & Hkd). cbn [fst] in Hc. subst c'.
  assert (Hl : lookup cipherSuites c = d)
    by (unfold lookup; rewrite (map_get_In _ _ _ cipherSuites_keys_NoDup Hkd); reflexivity).
  destruct (cipherSuites_explain_some c d Hkd) as [d' Hd'].
  destruct tlsLayout_render as (t & Ht & Hrun).
  exists d'. rewrite Hl. split; [exact Hd'|].
  unfold EncodeTLSToText. cbn [CS_Version CS_CipherSuite].
  rewrite Hl, Hd', Ht, Hrun. reflexivity.
Qed.

(** ** Slugs identify identifiers *)

Lemma NoDup_map_inj : forall {A B} (f : A -> B) (l : list A) x y,
  NoDup (map f l) -> In x l -> In y l -> f x = f y -> x = y.
Proof.
  intros A B f l; induction l as [|a l IH]; intros x y Hnd Hx Hy Hf; [destruct Hx|].
  inversion Hnd as [|? ? Hnot Hnd']; subst.
  destruct Hx as [<-|Hx], Hy as [<-|Hy]; try reflexivity.
  - exfalso. apply Hnot. rewrite Hf. now apply in_map.
  - exfalso. apply Hnot. rewrite <- Hf. now apply in_map.
  - now apply IH.
Qed.

Lemma lookup_absent : forall reg c,
  ~ In c (map fst reg) ->
  lookup reg c = mkDescription ("UNKNOWN_" ++ fmt_x c) ("UNKNOWN_" ++ fmt_x c) 0.
Proof. intros reg c H. unfold lookup. rewrite (map_get_notin _ _ H). reflexivity. Qed.

Lemma lookup_present : forall reg c,
  NoDup (map fst reg) -> In c (map fst reg) ->
  exists d, In (c, d) reg /\ lookup reg c = d.
Proof.
  intros reg c Hnd Hin.
  apply in_map_iff in Hin as ([c' d] & Hc & Hkd). cbn [fst] in Hc. subst c'.
  exists d. split; [exact Hkd|].
  unfold lookup. rewrite (map_get_In _ _ _ Hnd Hkd). reflexivity.
Qed.

Lemma lookup_slug_injective : forall reg,
  NoDup (map fst reg) ->
  NoDup (map (fun kv => Slug (snd kv)) reg) ->
  (forall k d, In (k, d) reg -> String.get 0 (Slug d) <> Some "U"%char) ->
  forall c1 c2, (c1 < 65536)%N -> (c2 < 65536)%N ->
  Slug (lookup reg c1) = Slug (lookup reg c2) -> c1 = c2.
Proof.
  intros reg Hkeys Hslugs HU c1 c2 Hc1 Hc2 Heq.
  destruct (in_dec N.eq_dec c1 (map fst reg)) as [In1|Out1],
           (in_dec N.eq_dec c2 (map fst reg)) as [In2|Out2].
  - destruct (lookup_present reg c1 Hkeys In1) as (d1 & H1 & L1).
    destruct (lookup_present reg c2 Hkeys In2) as (d2 & H2 & L2).
    rewrite L1, L2 in Heq.
    pose proof (NoDup_map_inj _ _ (c1, d1) (c2, d2) Hslugs H1 H2 Heq) as E.
    now injection E.
  - destruct (lookup_present reg c1 Hkeys In1) as (d1 & H1 & L1).
    rewrite L1, (lookup_absent reg c2 Out2) in Heq. cbn [Slug] in Heq.
    exfalso. apply (HU c1 d1 H1). rewrite Heq. reflexivity.
  - destruct (lookup_present reg c2 Hkeys In2) as (d2 & H2 & L2).
    rewrite L2, (lookup_absent reg c1 Out1) in Heq. cbn [Slug] in Heq.
    exfalso. apply (HU c2 d2 H2). rewrite <- Heq. reflexivity.
  - rewrite (lookup_absent reg c1 Out1), (lookup_absent reg c2 Out2) in Heq.
    cbn [Slug String.append] in Heq.
    injection Heq as Hx.
    destruct (fmt_x_uint16 c1 Hc1) as (_ & V1 & _).
    destruct (fmt_x_uint16 c2 Hc2) as (_ & V2 & _).
    rewrite <- V1, <- V2, Hx. reflexivity.
Qed.

Lemma tlsVersions_slugs_NoDup : NoDup (map (fun kv => Slug (snd kv)) tlsVersions).
Proof. cbv [map tlsVersions snd Slug]; repeat constructor; cbn; intuition discriminate. Qed.

Lemma cipherSuites_slugs_NoDup : NoDup (map (fun kv => Slug (snd kv)) cipherSuites).
Proof. cbv [map cipherSuites snd Slug]; repeat constructor; cbn; intuition discriminate. Qed.

Ltac version_cases H :=
  cbv [tlsVersions In] in H;
  repeat (destruct H as [H|H]; [injection H as <- <-|]); [..|destruct H].

Lemma tlsVersions_slug_not_U : forall k d,
  In (k, d) tlsVersions -> String.get 0 (Slug d) <> Some "U"%char.
Proof. intros k d H. version_cases H; discriminate. Qed.

Lemma cipherSuites_slug_not_U : forall k d,
  In (k, d) cipherSuites -> String.get 0 (Slug d) <> Some "U"%char.
Proof. intros k d H. registry_cases H; discriminate. Qed.

(** ** Extra properties *)

(** X1: for a 16-bit cipher-suite identifier, [EncodeTLSToText] returns
    a string exactly when the identifier is registered in [cipherSuites];
    the version identifier plays no part. *)
Theorem EncodeTLSToText_succeeds_iff_registered_suite :
  forall Color (red yellow green : Color) SprintFunc v c, (c < 65536)%N ->
  (exists out, EncodeTLSToText red yellow green SprintFunc (mkConnectionState v c) = Some out)
  <-> In c (map fst cipherSuites).
Proof.
  intros Color red yellow green SprintFunc v c Hc. split.
  - intros [out Hout].
    destruct (in_dec N.eq_dec c (map fst cipherSuites)) as [Hin|Hnot]; [exact Hin|].
    rewrite (EncodeTLSToText_unknown_cipher Color red yellow green SprintFunc v c Hc Hnot)
      in Hout.
    discriminate Hout.
  - intros Hin.
    destruct (EncodeTLSToText_registered_cipher Color red yellow green SprintFunc v c Hin)
      as (d' & _ & Hout).
    eexists. exact Hout.
Qed.

Lemma EncodeTLSToText_succeeds_iff_registered_suite_witness :
  exists out, EncodeTLSToText "1;31" "1;33" "1;32" ansi_sprint
                (mkConnectionState 0x0304 TLS_ECDHE_ECDSA_WITH_AES_256_GCM_SHA384) = Some out.
Proof.
  apply (EncodeTLSToText_succeeds_iff_registered_suite string "1;31" "1;33" "1;32" ansi_sprint
           0x0304 TLS_ECDHE_ECDSA_WITH_AES_256_GCM_SHA384).
  - vm_compute. reflexivity.
  - cbv [map fst cipherSuites In]. do 19 right. left. reflexivity.
Defined.

(** X2: with a registered cipher suite, an unregistered version identifier
    is still rendered: the version line shows the placeholder
    ["UNKNOWN_<hex>"] in the colour of the insecure tier. *)
Theorem EncodeTLSToText_unknown_version :
  forall Color (red yellow green : Color) SprintFunc v c,
  ~ In v (map fst tlsVersions) -> In c (map fst cipherSuites) ->
  exists d', explainCipher (lookup cipherSuites c) = Some d' /\
    EncodeTLSToText red yellow green SprintFunc (mkConnectionState v c)
    = Some ("** TLS Connection **" ++ nl ++
            "Version: " ++ SprintFunc red ("UNKNOWN_" ++ fmt_x v) ++ nl ++
            "Cipher Suite: " ++ tlscolor red yellow green SprintFunc d').
Proof.
  intros Color red yellow green SprintFunc v c Hv Hc.
  destruct (EncodeTLSToText_registered_cipher Color red yellow green SprintFunc v c Hc)
    as (d' & Hd' & Hout).
  exists d'. split; [exact Hd'|].
  rewrite Hout, (lookup_absent tlsVersions v Hv). reflexivity.
Qed.

Lemma EncodeTLSToText_unknown_version_witness :
  exists d', explainCipher (lookup cipherSuites TLS_RSA_WITH_AES_128_CBC_SHA) = Some d' /\
    EncodeTLSToText "1;31" "1;33" "1;32" ansi_sprint
      (mkConnectionState 0x0304 TLS_RSA_WITH_AES_128_CBC_SHA)
    = Some ("** TLS Connection **" ++ nl ++
            "Version: " ++ ansi_sprint "1;31" "UNKNOWN_304" ++ nl ++
            "Cipher Suite: " ++ tlscolor "1;31" "1;33" "1;32" ansi_sprint d').
Proof.
  apply (EncodeTLSToText_unknown_version string "1;31" "1;33" "1;32" ansi_sprint
           0x0304 TLS_RSA_WITH_AES_128_CBC_SHA).
  - cbv [map fst tlsVersions In]. intuition discriminate.
  - cbv [map fst cipherSuites In]. do 2 right. left. reflexivity.
Defined.

(** X3: the template of [EncodeTLSToText] always parses and always
    executes, whatever the two field values: the two "Should never
    happen" panics are unreachable, and the output is the header line,
    ["Version: "] with the version field, ["Cipher Suite: "] with the
    cipher field. *)
Theorem tlsLayout_parse_execute_total : exists t,
  template_Parse tlsLayout = Some t /\
  forall d, template_Execute t d
            = Some ("** TLS Connection **" ++ nl ++ "Version: " ++ Version d ++ nl ++
                    "Cipher Suite: " ++ Cipher d).
Proof. exact tlsLayout_render. Qed.

(** X4: the cipher field of [EncodeTLSToObject] identifies the 16-bit
    cipher-suite identifier: registered slugs are distinct, placeholders
    never collide with them, and distinct unknown identifiers give
    distinct placeholders. *)
Theorem EncodeTLSToObject_cipher_injective : forall v1 v2 c1 c2,
  (c1 < 65536)%N -> (c2 < 65536)%N ->
  Cipher (EncodeTLSToObject (mkConnectionState v1 c1))
  = Cipher (EncodeTLSToObject (mkConnectionState v2 c2)) -> c1 = c2.
Proof.
  intros v1 v2 c1 c2 H1 H2 H.
  exact (lookup_slug_injective cipherSuites cipherSuites_keys_NoDup
           cipherSuites_slugs_NoDup cipherSuites_slug_not_U c1 c2 H1 H2 H).
Qed.

Lemma EncodeTLSToObject_cipher_injective_witness :
  TLS_ECDHE_RSA_WITH_AES_128_GCM_SHA256 = TLS_ECDHE_RSA_WITH_AES_128_GCM_SHA256.
Proof.
  apply (EncodeTLSToObject_cipher_injective VersionTLS12 VersionTLS11
           TLS_ECDHE_RSA_WITH_AES_128_GCM_SHA256 TLS_ECDHE_RSA_WITH_AES_128_GCM_SHA256);
    vm_compute; reflexivity.
Defined.

(** X5: likewise, the version field of [EncodeTLSToObject] identifies the
    16-bit version identifier. *)
Theorem EncodeTLSToObject_version_injective : forall v1 v2 c1 c2,
  (v1 < 65536)%N -> (v2 < 65536)%N ->
  Version (EncodeTLSToObject (mkConnectionState v1 c1))
  = Version (EncodeTLSToObject (mkConnectionState v2 c2)) -> v1 = v2.
Proof.
  intros v1 v2 c1 c2 H1 H2 H.
  exact (lookup_slug_injective tlsVersions tlsVersions_keys_NoDup
           tlsVersions_slugs_NoDup tlsVersions_slug_not_U v1 v2 H1 H2 H).
Qed.

Lemma EncodeTLSToObject_version_injective_witness : (0x0304 = 0x0304)%N.
Proof.
  apply (EncodeTLSToObject_version_injective 0x0304 0x0304 0 5); vm_compute; reflexivity.
Defined.

(** X6: [explainCipher] is idempotent: applied to its own result it
    gives that result again. *)
Theorem explainCipher_idempotent : forall d d',
  explainCipher d = Some d' -> explainCipher d' = Some d'.
Proof.
  intros d d' H.
  pose proof (explainCipher_result d d' H) as E.
  rewrite E at 1. rewrite explainCipher_ignores_name. exact H.
Qed.

Lemma explainCipher_idempotent_witness :
  explainCipher (mkDescription "ECDHE_RSA key exchange, AES_128_CBC_SHA cipher"
                   "TLS_ECDHE_RSA_WITH_AES_128_CBC_SHA" ok)
  = Some (mkDescription "ECDHE_RSA key exchange, AES_128_CBC_SHA cipher"
            "TLS_ECDHE_RSA_WITH_AES_128_CBC_SHA" ok).
Proof.
  apply (explainCipher_idempotent (mkDescription "" "TLS_ECDHE_RSA_WITH_AES_128_CBC_SHA" ok)).
  reflexivity.
Defined.

(** X7: [explainCipher] panics exactly when the slug has no ["_WITH_"], or
    its first ["_WITH_"] starts within the first four characters (so that
    [kexAndCipher[0][len("TLS_"):]] is out of range). *)
Theorem explainCipher_panics_iff : forall d,
  explainCipher d = None <->
  (index_of "_WITH_" (Slug d) = None \/
   exists m, index_of "_WITH_" (Slug d) = Some m /\ m < 4).
Proof. exact explainCipher_none_iff. Qed.

(** X8: joining the pieces of [strings.Split] with the separator gives
    back the split string. *)
Theorem strings_Split_concat : forall s sep,
  sep <> "" -> String.concat sep (strings_Split s sep) = s.
Proof. intros s sep _. apply concat_split_fuel. Qed.

Lemma strings_Split_concat_witness :
  String.concat "_WITH_" (strings_Split "TLS_RSA_WITH_RC4_128_SHA" "_WITH_")
  = "TLS_RSA_WITH_RC4_128_SHA".
Proof. apply strings_Split_concat. discriminate. Defined.

(** X9: every registered version and cipher suite has a tier of the
    colour table, so [tlscolor] always colours it (never the plain
    fallback). *)
Theorem tlscolor_registered_colored :
  forall Color (red yellow green : Color) SprintFunc k d,
  In (k, d) tlsVersions \/ In (k, d) cipherSuites ->
  exists c, In c [red; yellow; green] /\
            tlscolor red yellow green SprintFunc d = SprintFunc c (Name d).
Proof.
  intros Color red yellow green SprintFunc k d [H|H];
    [version_cases H | registry_cases H];
    first [ exists red; split; [left; reflexivity | reflexivity]
          | exists yellow; split; [right; left; reflexivity | reflexivity]
          | exists green; split; [right; right; left; reflexivity | reflexivity] ].
Qed.

Lemma tlscolor_registered_colored_witness :
  exists c, In c ["1;31"; "1;33"; "1;32"] /\
    tlscolor "1;31" "1;33" "1;32" ansi_sprint (mkDescription "SSL 3.0" "ssl_3_0" insecure)
    = ansi_sprint c "SSL 3.0".
Proof.
  apply (tlscolor_registered_colored string "1;31" "1;33" "1;32" ansi_sprint VersionSSL30).
  left. left. reflexivity.
Defined.
